(** * The documentation generator of the model framework

    A shallow embedding of [src/mframework/_documentation.py]: the
    generator walks a model specification and emits RST text (headers,
    tables, mermaid diagrams), and optionally writes two files. *)

From Stdlib Require Import String Ascii List ZArith Bool Arith Lia DecimalString.
Import ListNotations.
Open Scope string_scope.

(** ** Python built-ins used by the module *)

Module Py.

(** The exceptions that the module's own code can raise, and [OSError]
    for [open] and [write]. *)
Inductive exn : Type := KeyError | ValueError | OSError.

Inductive result (A : Type) : Type :=
| Ok (a : A)
| Raise (e : exn).
Arguments Ok {A} a.
Arguments Raise {A} e.

Definition rbind {A B : Type} (r : result A) (k : A -> result B) : result B :=
  match r with
  | Ok a => k a
  | Raise e => Raise e
  end.

(** A Python [str] is a sequence of characters; [ascii] stands for the
    character, so [String.length] is [len]. *)
Definition blank : string := EmptyString.
Definition nl : string := String (ascii_of_nat 10) EmptyString.

(** [bool(s)] for a str. *)
Definition truthy (s : string) : bool :=
  match s with
  | EmptyString => false
  | String _ _ => true
  end.

(** [s * n] *)
Fixpoint mul (s : string) (n : nat) : string :=
  match n with
  | O => EmptyString
  | S k => s ++ mul s k
  end.

(** [s.startswith(p)] *)
Definition startswith (s p : string) : bool := String.prefix p s.

(** [s.center(width, fill)], as CPython pads: the left margin gets the
    extra character when both the margin and the width are odd. *)
Definition center (s : string) (width : nat) (fill : string) : string :=
  if (width <=? String.length s)%nat then s
  else
    let marg := width - String.length s in
    let left := marg / 2 + Nat.land (Nat.land marg width) 1 in
    mul fill left ++ s ++ mul fill (marg - left).

(** [max(l)] of a list of lengths; an empty list raises [ValueError]. *)
Definition max (l : list nat) : result nat :=
  match l with
  | [] => Raise ValueError
  | x :: rest => Ok (fold_left Nat.max rest x)
  end.

(** [enumerate(l)] *)
Fixpoint enumerate_from {A : Type} (i : nat) (l : list A) : list (nat * A) :=
  match l with
  | [] => []
  | x :: rest => (i, x) :: enumerate_from (S i) rest
  end.
Definition enumerate {A : Type} (l : list A) : list (nat * A) := enumerate_from 0 l.

(** [str(i)] of a non-negative int. *)
Definition str_of_nat (i : nat) : string := NilZero.string_of_uint (Nat.to_uint i).

(** The values stored as flags and in schema dicts.  The module only
    formats them with [str]; [PyOther] is any other object (a type, a
    float, a nested dict, ...), given by the text [str] returns for it. *)
Inductive pyval : Type :=
| PyNone
| PyBool (b : bool)
| PyInt (n : Z)
| PyStr (s : string)
| PyOther (text : string).

Definition str (v : pyval) : string :=
  match v with
  | PyNone => "None"
  | PyBool true => "True"
  | PyBool false => "False"
  | PyInt n => NilZero.string_of_int (Z.to_int n)
  | PyStr s => s
  | PyOther text => text
  end.

(** [d[key]] on an entry that may be missing. *)
Definition getitem {A : Type} (entry : option A) : result A :=
  match entry with
  | Some v => Ok v
  | None => Raise KeyError
  end.

(** [d.get(key, default)] *)
Definition get {A : Type} (entry : option A) (default : A) : A :=
  match entry with
  | Some v => v
  | None => default
  end.

(** [d[key]] on a dict literal, here an association list. *)
Fixpoint lookup {K V : Type} (eqb : K -> K -> bool) (d : list (K * V)) (key : K) : result V :=
  match d with
  | [] => Raise KeyError
  | (k, v) :: rest => if eqb k key then Ok v else lookup eqb rest key
  end.

(** [os.path.join(a, b)] of [posixpath]. *)
Fixpoint endswith_sep (s : string) : bool :=
  match s with
  | EmptyString => false
  | String c EmptyString => Ascii.eqb c "/"
  | String _ rest => endswith_sep rest
  end.

Definition os_path_join (a b : string) : string :=
  if startswith b "/" then b
  else if negb (truthy a) || endswith_sep a then a ++ b
  else a ++ "/" ++ b.

End Py.
Import Py.

Notation "'let*' x ':=' r 'in' k" := (rbind r (fun x => k))
  (at level 10, x name, r at level 100, k at level 200).

(** ** The model specification *)

(** A schema dict: key and value pairs in insertion order. *)
Definition schemadict : Type := list (string * pyval).

(** The documentation record of a property, a dict with the keys
    ['main'] (a str), ['singleton'] and ['required'] (the flags) and
    ['schema'] (a schema dict); [None] is a missing key. *)
Record p_dict : Type := {
  p_main : option string;
  p_singleton : option pyval;
  p_required : option pyval;
  p_schema : option schemadict
}.

(** The documentation record of a feature, a dict with the keys ['main']
    (a str), ['singleton'] and ['required'] (the flags) and ['sub'], which
    maps property names to their records, in insertion order; [None] is a
    missing key. *)
Record f_dict : Type := {
  f_main : option string;
  f_singleton : option pyval;
  f_required : option pyval;
  f_sub : option (list (string * p_dict))
}.

(** Modelled from the spec: the model-specification class, which this
    module does not define.  The generator uses two members of it, the
    method [get_docs()] and the attribute [keys]; following the spec (an
    in-memory description of all features and properties and their
    documentation strings) the object is the nested record of the
    documentation, in insertion order, and the list of the feature
    keys. *)
Record mspec : Type := {
  spec_docs : list (string * f_dict);
  spec_keys : list string
}.

(** ** State and effects *)

(** What a call of the generator can touch: the specification object
    bound to its parameter [mspec], and the file system, where [can_write]
    says for which paths [open(path, "w")] and the write succeed and
    [written] lists the files written, oldest first.  [iterations] counts
    the bodies of [for] statements entered. *)
Record world : Type := {
  the_spec : mspec;
  can_write : string -> bool;
  written : list (string * string);
  iterations : nat
}.

Definition M (A : Type) : Type := world -> result A * world.

Definition ret {A : Type} (a : A) : M A := fun w => (Ok a, w).

Definition bind {A B : Type} (m : M A) (k : A -> M B) : M B :=
  fun w =>
    match m w with
    | (Ok a, w') => k a w'
    | (Raise e, w') => (Raise e, w')
    end.

Definition lift {A : Type} (r : result A) : M A := fun w => (r, w).

Notation "x <- c ;; k" := (bind c (fun x => k))
  (at level 61, c at next level, right associativity).
Notation "c ;; k" := (bind c (fun _ => k))
  (at level 61, right associativity).

(** One more loop body entered. *)
Definition tick : M unit :=
  fun w => (Ok tt, {| the_spec := the_spec w; can_write := can_write w;
                      written := written w; iterations := S (iterations w) |}).

(** [for x in items: body], with the loop's variables threaded as [s]. *)
Fixpoint for_in {A S : Type} (items : list A) (body : A -> S -> M S) (s : S) : M S :=
  match items with
  | [] => ret s
  | x :: rest => tick ;; s' <- body x s ;; for_in rest body s'
  end.

(** [with open(file_path, "w") as fp: fp.write(text)] *)
Definition write_file (file_path text : string) : M unit :=
  fun w =>
    if can_write w file_path
    then (Ok tt, {| the_spec := the_spec w; can_write := can_write w;
                    written := written w ++ [(file_path, text)];
                    iterations := iterations w |})
    else (Raise OSError, w).

(** Modelled from the spec: [mspec.get_docs()] and [mspec.keys] of the
    specification class, which this module does not define, as reads of
    the object (data flows one way, from the specification to the
    generator). *)
Definition get_docs : M (list (string * f_dict)) :=
  fun w => (Ok (spec_docs (the_spec w)), w).

Definition keys : M (list string) :=
  fun w => (Ok (spec_keys (the_spec w)), w).

(** ** The module's constants *)

Definition URL_RESSOURCE : string :=
  "https://raw.githubusercontent.com/airinnova/model-framework/master/src/mframework/ressources".

Definition URL_ICONS : string := URL_RESSOURCE ++ "/icons".

(** The text of a triple-quoted literal, line by line. *)
Definition lines (ls : list string) : string :=
  fold_right (fun l text => l ++ nl ++ text) blank ls.

Definition RST_GENERAL_USAGE : string :=
  lines [
    blank;
    "How to use the Model object";
    "===========================";
    blank;
    "This page describes the usage of the ``Model`` object. This object provides a";
    "pure Python API, so some basic knowledge about Python is assumed.";
    blank;
    "Model paradigm";
    "--------------";
    blank;
    "A ``Model`` consists one or more *features*. For instance, an *aircraft* model";
    "might have the feature *propulsion* and the feature *wing*. Such a feature";
    "consists of one or more *properties*. Concrete values can be assigned to these";
    "properties. So, in our example propulsion might have the properties *thrust*";
    "and *type*, and the *wing* feature might have properties *span* and";
    "*mount_point* (e.g. for an engine, landing gear, or some other technical";
    "system). We may assign some values to each of these properties. For instance,";
    "we may set thrust to :math:`50\,\textrm{kN}` or the span to";
    ":math:`20\,\textrm{m}`. How do we set these values in a Python script?";
    blank;
    ".. code:: python";
    blank;
    "    # Get an instance of the Model object";
    "    model = Model()";
    blank;
    "    # From the model instance, we can create a 'propulsion' instance. We can";
    "    # now set actual value to the properties 'trust' and propulsion 'type'.";
    "    prop = model.set_feature('propulsion')";
    "    prop.set('thrust', 50e3)";
    "    prop.set('type', 'turbofan engine')";
    blank;
    "    # Now we create a new 'wing'. We can set the 'span' and add mount points";
    "    wing = model.add_feature('wing')";
    "    wing.set('span', 20)";
    "    wing.add('mount_point', (4, 2, 4))";
    "    wing.add('mount_point', (4, 6, 4))";
    "    wing.add('mount_point', (4, 20, 4))";
    blank;
    blank;
    ".. figure:: " ++ URL_RESSOURCE ++ "/aircraft_model.svg";
    "   :width: 500";
    "   :alt: Simple aircraft model";
    "   :align: center";
    blank;
    "   Simple aircraft model with a *propulsion* features, and a *wing* feature";
    blank;
    "Notice the method ``add_feature()``. When calling this method, we create a";
    "*instance* of the feature we want to add (here ``'propulsion'`` and";
    "``'wing'``). The feature instance has ``set()`` and ``add()`` methods to assign";
    "a value to some property. The model object will check the value. That means";
    "that you must provide a number for the property *trust*. If you try to assign,";
    "say a string (``'50e3'``), an error will be thrown, and the model will not";
    "continue to be built.";
    blank;
    blank;
    ".. figure:: " ++ URL_RESSOURCE ++ "/model_api_hierarchy.svg";
    "   :alt: Model hierarchy";
    "   :align: center";
    blank;
    "   A model object can have multiple features, and each feature can have";
    "   multiple properties";
    blank;
    "Model and feature methods";
    "-------------------------";
    blank;
    "The ``Model`` object and its features provide only few methods. The main thing";
    "to remember is that there are ``set*`` and ``add*`` methods. The ``set*``";
    "method will always apply if there can only be one instance, and the ``add*``";
    "method will apply if there can be multiple instances. For example, an aircraft";
    "can have more than one wing, hence the ``add_feature()`` method applies. To";
    "create another wing, we simply call the method again. However, some feature may";
    "only exists once. In our dummy aircraft model, we impose the restriction of";
    "only adding *one* propulsion feature (arguably, an aircraft model could have";
    "multiple propulsion instances, but here we assume otherwise). To highlight that";
    "propulsion is a *singleton* feature, we use the ``set_feature()`` method.";
    "Trying to use ``add_feature('propulsion')`` will result in an error and the";
    "model will not continue to build. Property values in a feature can be assigned";
    "with the ``add()`` and ``set()`` methods, depending on whether the properties";
    "are singleton or not. In the example above, the wing may have multiple mount";
    "points, but there can only be a single wing span.";
    blank;
    "+---------------+----------------------------------+---------------------------------+";
    "|               | **Model**                        | **Feature**                     |";
    "+---------------+----------------------------------+---------------------------------+";
    "| Singleton     | ``set_feature('feature_name')``  | ``set('property_name', value)`` |";
    "+---------------+----------------------------------+---------------------------------+";
    "| Non-singleton | ``add_feature('feature_name')``  | ``add('property_name', value)`` |";
    "+---------------+----------------------------------+---------------------------------+";
    blank;
    "You can retrieve feature instances from your model at any time. Note that you";
    "must have created these instances first with the methods discussed above. The";
    "table below shows the available methods you may use.";
    blank;
    "..";
    "    TODO";
    "    * More detailed explanation of difference between 'get()' and 'iter()'";
    blank;
    "+---------------+--------------------------+---------------------------+";
    "|               | **Model**                | **Feature**               |";
    "+---------------+--------------------------+---------------------------+";
    "| Singleton     | ``get('feature_name')``  | ``get('property_name')``  |";
    "+---------------+--------------------------+---------------------------+";
    "| Non-singleton | ``iter('feature_name')`` | ``iter('property_name')`` |";
    "+---------------+--------------------------+---------------------------+";
    blank;
    "Running the model";
    "-----------------";
    blank;
    "The last thing you need to know is how to run the model. Once you set up the";
    "entire, you can call the ``run()`` method. This method will start the actual";
    "evaluation of the model.";
    blank;
    ".. code:: python";
    blank;
    "    model = Model()";
    "    ...  # Add features and assign values here";
    "    results = model.run()";
    blank;
    "Results";
    "-------";
    blank;
    "TODO";
    blank;
    nl
  ].

Definition RST_INTRO_MODEL_API : string :=
  lines [
    "Below you will find a comprehensive list of all";
    "available features and properties. The model object has the following features:";
    blank;
    nl ++ nl
  ].

(** ** The generator *)

(** [gen_feature_graph(mspec)]: the graph that lists the features. *)
Definition gen_feature_graph : M string :=
  let rst := blank in
  let rst := rst ++ ".. mermaid::" ++ nl ++ nl in
  let rst := rst ++ "    graph TD" ++ nl in
  let rst := rst ++ "    A[Model]" ++ nl in
  mspec_keys <- keys ;;
  rst <- for_in (enumerate mspec_keys)
           (fun '(i, key) rst =>
              ret (rst ++ "    A --> F" ++ str_of_nat i ++ "[" ++ key ++ "]" ++ nl))
           rst ;;
  let rst := rst ++ nl ++ nl in
  ret rst.

(** [gen_graph_property_relation(prop_name, parent_feature)] *)
Definition gen_graph_property_relation (prop_name parent_feature : string) : string :=
  let rst := blank in
  let rst := rst ++ ".. mermaid::" ++ nl ++ nl in
  let rst := rst ++ "    graph LR" ++ nl in
  let rst := rst ++ "    A[Model]" ++ nl in
  let rst := rst ++ "    A --> F1[" ++ parent_feature ++ "] " ++ nl in
  let rst := rst ++ "    F1 --> P1[" ++ prop_name ++ "] " ++ nl in
  let rst := rst ++ nl ++ nl in
  rst.

(** [get_header(string, level=0)]: make a header. *)
Definition get_header (string : string) (level : Z) : result String.string :=
  let header := [(0%Z, "="); (1%Z, "-"); (2%Z, "~"); (3%Z, "^")] in
  let* c := lookup Z.eqb header level in
  Ok (string ++ nl ++ mul c (String.length string) ++ nl ++ nl).

(** [rst_add_icon(icon_type)] *)
Definition rst_add_icon (icon_type : string) : result string :=
  let icons := [
    ("feature", "archive.svg");
    ("property", "parking.svg");
    ("description", "notes.svg");
    ("required", "lifebuoy.svg");
    ("singleton", "point.svg");
    ("schema", "clipboard-check.svg")
  ] in
  let rst := blank in
  let* icon := lookup String.eqb icons icon_type in
  let rst := rst ++ ".. image:: " ++ URL_ICONS ++ "/" ++ icon ++ nl in
  let rst := rst ++ "   :align: left" ++ nl in
  let rst := rst ++ "   :alt: " ++ icon_type ++ nl in
  let rst := rst ++ nl in
  Ok rst.

(** [schemadict2rst(sd)]: the table of a schema dict. *)
Definition schemadict2rst (sd : schemadict) : M string :=
  m <- lift (max (map (fun key => String.length key) (map fst sd))) ;;
  let max_key_len := m + 4 in
  max_value_len <- lift (max (map (fun value => String.length (str value)) (map snd sd))) ;;
  let n1 := max_key_len in
  let n2 := max_value_len in
  let table_env := mul "=" n1 ++ " " ++ mul "=" n2 ++ nl in
  let rst := blank in
  let rst := rst ++ table_env in
  rst <- for_in sd
           (fun '(key, schema) rst =>
              let key_string := "**" ++ key ++ "**" in
              ret (rst ++ center key_string max_key_len " " ++ " "
                       ++ center (str schema) max_value_len " " ++ nl))
           rst ;;
  let rst := rst ++ table_env in
  let rst := rst ++ nl in
  ret rst.

(** The body of the loop over the properties of a feature
    ([for p_name, p_dict in f_dict['sub'].items()]). *)
Definition doc2rst_property (f_name : string) (item : string * p_dict) (rst : string) : M string :=
  let '(p_name, p_dict) := item in
  h <- lift (get_header ("Property: " ++ p_name) 2) ;;
  let rst := rst ++ h in
  let rst := rst ++ gen_graph_property_relation p_name f_name in
  let p_main_doc := get (p_main p_dict) blank in
  rst <- (if truthy p_main_doc
          then
            icon <- lift (rst_add_icon "description") ;;
            let rst := rst ++ icon ++ "*Description*: " in
            ret (rst ++ p_main_doc ++ nl ++ nl)
          else ret rst) ;;
  icon <- lift (rst_add_icon "singleton") ;;
  flag <- lift (getitem (p_singleton p_dict)) ;;
  let rst := rst ++ icon ++ "*Singleton*: " ++ str flag ++ nl ++ nl in
  icon <- lift (rst_add_icon "required") ;;
  flag <- lift (getitem (p_required p_dict)) ;;
  let rst := rst ++ icon ++ "*Required*: " ++ str flag ++ nl ++ nl in
  (* p_dict.get('schema', ''): the empty str and the empty dict are both false *)
  match p_schema p_dict with
  | Some ((_ :: _) as p_schema_doc) =>
      icon <- lift (rst_add_icon "schema") ;;
      let rst := rst ++ icon ++ "*Schema*:" ++ nl ++ nl in
      table <- schemadict2rst p_schema_doc ;;
      ret (rst ++ table)
  | _ => ret rst
  end.

(** The body of the loop over the features
    ([for f_name, f_dict in doc.items()]). *)
Definition doc2rst_feature (item : string * f_dict) (rst : string) : M string :=
  let '(f_name, f_dict) := item in
  if startswith f_name "$" then ret rst (* continue *)
  else
    h <- lift (get_header ("Feature: " ++ f_name) 1) ;;
    let rst := rst ++ h in
    let f_main_doc := get (f_main f_dict) blank in
    rst <- (if truthy f_main_doc
            then
              icon <- lift (rst_add_icon "description") ;;
              let rst := rst ++ icon ++ "*Description*: " in
              let rst := rst ++ f_main_doc in
              ret (rst ++ nl ++ nl)
            else ret rst) ;;
    icon <- lift (rst_add_icon "singleton") ;;
    flag <- lift (getitem (f_singleton f_dict)) ;;
    let rst := rst ++ icon ++ "*Singleton*: " ++ str flag ++ nl ++ nl in
    icon <- lift (rst_add_icon "required") ;;
    flag <- lift (getitem (f_required f_dict)) ;;
    let rst := rst ++ icon ++ "*Required*: " ++ str flag ++ nl ++ nl in
    sub <- lift (getitem (f_sub f_dict)) ;;
    for_in sub (doc2rst_property f_name) rst.

(** [doc2rst(mspec, dir_path=None)]: convert the model documentation to
    RST; [mspec] is the specification object of the world. *)
Definition doc2rst (dir_path : option string) : M string :=
  doc <- get_docs ;;
  let rst := blank in
  h <- lift (get_header "Model" 0) ;;
  let rst := rst ++ h in
  let rst := rst ++ RST_INTRO_MODEL_API in
  graph <- gen_feature_graph ;;
  let rst := rst ++ graph in
  rst <- for_in doc doc2rst_feature rst ;;
  match dir_path with
  | Some dir_path =>
      let file_path := os_path_join dir_path "model_api_general.rst" in
      write_file file_path RST_GENERAL_USAGE ;;
      let file_path := os_path_join dir_path "model_api.rst" in
      write_file file_path rst ;;
      ret rst
  | None => ret rst
  end.

(** ** Vocabulary of the properties *)

(** The worlds a call leaves behind differ from the one it started in
    only in the iteration count, unless it writes files. *)
Definition quiet (w w' : world) : Prop :=
  the_spec w' = the_spec w /\ can_write w' = can_write w /\ written w' = written w.

Definition to_result {A : Type} (o : option A) : result A :=
  match o with
  | Some a => Ok a
  | None => Raise KeyError
  end.

Definition is_some {A : Type} (o : option A) : bool :=
  match o with
  | Some _ => true
  | None => false
  end.



(** The texts of a list, one after the other. *)
Definition cat (texts : list string) : string := fold_right append blank texts.

(** [s] holds no newline. *)
Fixpoint single_line (s : string) : bool :=
  match s with
  | EmptyString => true
  | String c rest => negb (Ascii.eqb c (ascii_of_nat 10)) && single_line rest
  end.

(** [m] is the greatest element of [l]. *)
Definition is_max (m : nat) (l : list nat) : Prop :=
  In m l /\ forall x, In x l -> x <= m.

(** The text of a header: the title, an underline, a blank line. *)
Definition header_text (c title : string) : string :=
  title ++ nl ++ mul c (String.length title) ++ nl ++ nl.

(** The text [rst_add_icon] returns for an icon type of its table. *)
Definition icon (icon_type : string) : string :=
  match rst_add_icon icon_type with
  | Ok rst => rst
  | Raise _ => blank
  end.

(** The feature diagram: the preamble, one edge per key, two newlines. *)
Definition graph_preamble : string :=
  ".. mermaid::" ++ nl ++ nl ++ "    graph TD" ++ nl ++ "    A[Model]" ++ nl.

Definition edge (i : nat) (key : string) : string :=
  "    A --> F" ++ str_of_nat i ++ "[" ++ key ++ "]" ++ nl.

Definition feature_graph_text (mspec_keys : list string) : string :=
  graph_preamble ++ cat (map (fun '(i, key) => edge i key) (enumerate mspec_keys)) ++ nl ++ nl.

(** The schema table: a border, one row per entry, the border again and a
    blank line. *)
Definition table_border (n1 n2 : nat) : string :=
  mul "=" n1 ++ " " ++ mul "=" n2 ++ nl.

Definition table_row (n1 n2 : nat) (entry : string * pyval) : string :=
  center ("**" ++ fst entry ++ "**") n1 " " ++ " " ++ center (str (snd entry)) n2 " " ++ nl.

Definition key_width (sd : schemadict) : nat :=
  fold_right Nat.max 0 (map (fun entry => String.length (fst entry)) sd).

Definition value_width (sd : schemadict) : nat :=
  fold_right Nat.max 0 (map (fun entry => String.length (str (snd entry))) sd).

Definition table_text (sd : schemadict) : string :=
  let n1 := key_width sd + 4 in
  let n2 := value_width sd in
  table_border n1 n2 ++ cat (map (table_row n1 n2) sd) ++ table_border n1 n2 ++ nl.

(** The parts of a section. *)
Definition description_text (main : option string) : string :=
  match main with
  | Some (String _ _ as text) => icon "description" ++ "*Description*: " ++ text ++ nl ++ nl
  | _ => blank
  end.

Definition singleton_text (flag : pyval) : string :=
  icon "singleton" ++ "*Singleton*: " ++ str flag ++ nl ++ nl.

Definition required_text (flag : pyval) : string :=
  icon "required" ++ "*Required*: " ++ str flag ++ nl ++ nl.

Definition schema_text (schema : option schemadict) : string :=
  match schema with
  | Some ((_ :: _) as sd) => icon "schema" ++ "*Schema*:" ++ nl ++ nl ++ table_text sd
  | _ => blank
  end.

(** The texts of the items of a loop, one after the other; [None] when
    the body fails on one of them. *)
Fixpoint sections {A : Type} (section : A -> option string) (items : list A) : option string :=
  match items with
  | [] => Some blank
  | x :: rest =>
      match section x, sections section rest with
      | Some a, Some b => Some (a ++ b)
      | _, _ => None
      end
  end.

Definition property_section (f_name : string) (item : string * p_dict) : option string :=
  match p_singleton (snd item), p_required (snd item) with
  | Some s, Some r =>
      Some (header_text "~" ("Property: " ++ fst item)
            ++ gen_graph_property_relation (fst item) f_name
            ++ description_text (p_main (snd item))
            ++ singleton_text s ++ required_text r
            ++ schema_text (p_schema (snd item)))
  | _, _ => None
  end.

Definition feature_section (item : string * f_dict) : option string :=
  if startswith (fst item) "$" then Some blank
  else
    match f_singleton (snd item), f_required (snd item), f_sub (snd item) with
    | Some s, Some r, Some sub =>
        match sections (property_section (fst item)) sub with
        | Some props =>
            Some (header_text "-" ("Feature: " ++ fst item)
                  ++ description_text (f_main (snd item))
                  ++ singleton_text s ++ required_text r ++ props)
        | None => None
        end
    | _, _, _ => None
    end.

(** The text of [model_api.rst]. *)
Definition model_api_text (m : mspec) : option string :=
  match sections feature_section (spec_docs m) with
  | Some body =>
      Some (header_text "=" "Model" ++ RST_INTRO_MODEL_API
            ++ feature_graph_text (spec_keys m) ++ body)
  | None => None
  end.

(** The mandatory entries are there: a feature that is not skipped has
    ['singleton'], ['required'] and ['sub'], and each of its properties
    has ['singleton'] and ['required']. *)
Definition property_complete (item : string * p_dict) : bool :=
  is_some (p_singleton (snd item)) && is_some (p_required (snd item)).

Definition feature_complete (item : string * f_dict) : bool :=
  startswith (fst item) "$" ||
  (is_some (f_singleton (snd item)) && is_some (f_required (snd item)) &&
   match f_sub (snd item) with
   | Some sub => forallb property_complete sub
   | None => false
   end).

Definition docs_complete (m : mspec) : bool := forallb feature_complete (spec_docs m).

(** The features that the walk does not skip. *)
Definition rendered (doc : list (string * f_dict)) : list (string * f_dict) :=
  filter (fun item => negb (startswith (fst item) "$")) doc.

(** The number of loop bodies a walk over the specification can enter. *)
Definition schema_size (schema : option schemadict) : nat :=
  match schema with
  | Some sd => List.length sd
  | None => 0
  end.

Definition property_size (item : string * p_dict) : nat :=
  1 + schema_size (p_schema (snd item)).

Definition feature_size (item : string * f_dict) : nat :=
  1 + match f_sub (snd item) with
      | Some sub => list_sum (map property_size sub)
      | None => 0
      end.

Definition walk_size (m : mspec) : nat :=
  List.length (spec_keys m) + list_sum (map feature_size (spec_docs m)).

(** A computation enters at most [n] loop bodies. *)
Definition costs {A : Type} (m : M A) (n : nat) : Prop :=
  forall w, iterations (snd (m w)) <= iterations w + n.

(** The world with another documentation in the specification. *)
Definition with_docs (w : world) (doc : list (string * f_dict)) : world :=
  {| the_spec := {| spec_docs := doc; spec_keys := spec_keys (the_spec w) |};
     can_write := can_write w;
     written := written w;
     iterations := iterations w |}.

(** What a call returns and which files it writes, from the generated
    text and the paths that can be written. *)
Definition general_path (dir_path : string) : string :=
  os_path_join dir_path "model_api_general.rst".

Definition api_path (dir_path : string) : string :=
  os_path_join dir_path "model_api.rst".

Definition returned (dir_path : option string) (ok : string -> bool) (text : option string)
  : result string :=
  match text, dir_path with
  | None, _ => Raise KeyError
  | Some rst, None => Ok rst
  | Some rst, Some d =>
      if ok (general_path d) && ok (api_path d) then Ok rst else Raise OSError
  end.

Definition files (dir_path : option string) (ok : string -> bool) (text : option string)
  : list (string * string) :=
  match text, dir_path with
  | Some rst, Some d =>
      if ok (general_path d)
      then (general_path d, RST_GENERAL_USAGE)
           :: (if ok (api_path d) then [(api_path d, rst)] else [])
      else []
  | _, _ => []
  end.

(** The description part of a section: the line when the ['main'] text is
    there and not empty, nothing otherwise. *)
Definition description_part (main : option string) (part : string) : Prop :=
  (exists text, main = Some text /\ text <> blank /\
     part = icon "description" ++ "*Description*: " ++ text ++ nl ++ nl)
  \/ ((main = None \/ main = Some blank) /\ part = blank).

(** The schema part: the table when the ['schema'] dict is there and not
    empty, nothing otherwise. *)
Definition schema_part (schema : option schemadict) (part : string) : Prop :=
  (exists sd, schema = Some sd /\ sd <> [] /\
     part = icon "schema" ++ "*Schema*:" ++ nl ++ nl ++ table_text sd)
  \/ ((schema = None \/ schema = Some []) /\ part = blank).

Definition property_rendered (f_name : string) (item : string * p_dict) (text : string) : Prop :=
  exists s r description schema,
    p_singleton (snd item) = Some s /\ p_required (snd item) = Some r /\
    description_part (p_main (snd item)) description /\
    schema_part (p_schema (snd item)) schema /\
    text = header_text "~" ("Property: " ++ fst item)
           ++ gen_graph_property_relation (fst item) f_name
           ++ description
           ++ singleton_text s
           ++ required_text r
           ++ schema.

Definition feature_rendered (item : string * f_dict) (text : string) : Prop :=
  exists s r sub description properties,
    f_singleton (snd item) = Some s /\ f_required (snd item) = Some r /\
    f_sub (snd item) = Some sub /\
    description_part (f_main (snd item)) description /\
    Forall2 (property_rendered (fst item)) sub properties /\
    text = header_text "-" ("Feature: " ++ fst item)
           ++ description
           ++ singleton_text s
           ++ required_text r
           ++ cat properties.

(** ** Sample specifications *)

Module Sample.

Definition span : p_dict :=
  {| p_main := Some "Distance between the wing tips";
     p_singleton := Some (PyBool true);
     p_required := Some (PyBool false);
     p_schema := Some [("type", PyOther "<class 'float'>"); (">", PyInt 0)] |}.

Definition wing : f_dict :=
  {| f_main := None;
     f_singleton := Some (PyBool false);
     f_required := Some (PyBool true);
     f_sub := Some [("span", span)] |}.

(** A feature record without the mandatory entries. *)
Definition bare : f_dict :=
  {| f_main := Some "Engines"; f_singleton := None; f_required := None; f_sub := None |}.

Definition start (m : mspec) (ok : string -> bool) : world :=
  {| the_spec := m; can_write := ok; written := []; iterations := 0 |}.

Definition aircraft : mspec :=
  {| spec_docs := [("wing", wing)]; spec_keys := ["wing"] |}.

Definition with_hidden : mspec :=
  {| spec_docs := [("wing", wing); ("$global", bare)]; spec_keys := ["wing"; "$global"] |}.

Definition incomplete : mspec :=
  {| spec_docs := [("propulsion", bare)]; spec_keys := ["propulsion"] |}.

(** Records with the mandatory entries only, and an empty schema dict. *)
Definition area : p_dict :=
  {| p_main := None;
     p_singleton := Some (PyBool true);
     p_required := Some (PyInt 1);
     p_schema := Some [] |}.

Definition tail : f_dict :=
  {| f_main := Some blank;
     f_singleton := Some (PyBool true);
     f_required := Some PyNone;
     f_sub := Some [("area", area); ("span", span)] |}.

Definition sparse : mspec :=
  {| spec_docs := [("tail", tail)]; spec_keys := ["tail"] |}.

Definition writable (path : string) : bool := true.
Definition read_only (path : string) : bool := false.

End Sample.

(** ** Sample disks *)

Module Disk.

(** A disk on which, under [docs], only the usage guide can be written. *)
Definition general_only (path : string) : bool :=
  String.eqb path "docs/model_api_general.rst".

End Disk.

(** * Properties *)

(** ** Strings *)

Lemma append_assoc (a b c : string) : (a ++ b) ++ c = a ++ b ++ c.
Proof. induction a as [|x a IH]; simpl; [reflexivity | now rewrite IH]. Qed.

Lemma append_blank_r (a : string) : a ++ blank = a.
Proof. induction a as [|x a IH]; simpl; [reflexivity | now rewrite IH]. Qed.

Lemma length_append (a b : string) :
  String.length (a ++ b) = String.length a + String.length b.
Proof. induction a as [|x a IH]; simpl; [reflexivity | now rewrite IH]. Qed.

Lemma length_mul (s : string) (n : nat) :
  String.length (mul s n) = n * String.length s.
Proof.
  induction n as [|n IH]; simpl; [reflexivity|].
  now rewrite length_append, IH.
Qed.

Lemma get_mul (c : ascii) (n i : nat) :
  i < n -> String.get i (mul (String c EmptyString) n) = Some c.
Proof.
  revert i; induction n as [|n IH]; intros i Hi; [lia|].
  destruct i as [|i]; simpl; [reflexivity|].
  apply IH; lia.
Qed.

Lemma length_center (s : string) (width : nat) (c : ascii) :
  String.length (center s width (String c EmptyString)) = Nat.max width (String.length s).
Proof.
  unfold center.
  destruct (Nat.leb_spec width (String.length s)) as [Hle|Hlt]; [lia|].
  rewrite !length_append, !length_mul; cbn [String.length].
  set (marg := width - String.length s).
  assert (Hbit : Nat.land (Nat.land marg width) 1 <= marg mod 2).
  { replace (Nat.land (Nat.land marg width) 1) with (Nat.land marg width mod 2)
      by (symmetry; exact (Nat.land_ones (Nat.land marg width) 1)).
    rewrite <- !Nat.bit0_mod, Nat.land_spec.
    destruct (Nat.testbit marg 0), (Nat.testbit width 0); simpl; lia. }
  assert (E := Nat.div_mod_eq marg 2).
  subst marg. lia.
Qed.





(** ** Effects and loops *)

Lemma quiet_refl (w : world) : quiet w w.
Proof. repeat split. Qed.

Lemma quiet_trans (w1 w2 w3 : world) : quiet w1 w2 -> quiet w2 w3 -> quiet w1 w3.
Proof. unfold quiet; intros (A1 & B1 & C1) (A2 & B2 & C2); repeat split; congruence. Qed.

Lemma sections_total {A : Type} (text : A -> string) (items : list A) :
  sections (fun x => Some (text x)) items = Some (cat (map text items)).
Proof. induction items as [|x items IH]; simpl; [reflexivity | now rewrite IH]. Qed.

Section Loops.

Context {A : Type}.
Variable body : A -> string -> M string.
Variable section : A -> option string.
Variable e : exn.

Hypothesis body_text :
  forall x rst w, exists w',
    body x rst w = (match section x with Some t => Ok (rst ++ t) | None => Raise e end, w')
    /\ quiet w w'.

(** A loop whose body appends the section of its item appends the
    sections of all items, or fails as the body does. *)
Lemma for_in_text (items : list A) :
  forall rst w, exists w',
    for_in items body rst w
    = (match sections section items with Some t => Ok (rst ++ t) | None => Raise e end, w')
    /\ quiet w w'.
Proof.
  induction items as [|x items IH]; intros rst w.
  - exists w. simpl. unfold ret. rewrite append_blank_r. split; [reflexivity | apply quiet_refl].
  - cbn [for_in sections]. unfold bind at 1. cbn [tick].
    set (w1 := {| the_spec := the_spec w; can_write := can_write w;
                  written := written w; iterations := S (iterations w) |}).
    assert (Q1 : quiet w w1) by (repeat split).
    unfold bind.
    destruct (body_text x rst w1) as (w2 & E2 & Q2). rewrite E2.
    destruct (section x) as [a|].
    + destruct (IH (rst ++ a) w2) as (w3 & E3 & Q3). rewrite E3.
      exists w3. split; [|eauto using quiet_trans].
      destruct (sections section items); [now rewrite append_assoc | reflexivity].
    + exists w2. split; [reflexivity | eauto using quiet_trans].
Qed.

End Loops.

Section LoopCost.

Context {A S : Type}.
Variable body : A -> S -> M S.
Variable cost : A -> nat.

Hypothesis body_cost :
  forall x s w, iterations (snd (body x s w)) <= iterations w + cost x.

(** A loop enters its body at most once per item. *)
Lemma for_in_cost (items : list A) :
  forall s w,
    iterations (snd (for_in items body s w))
    <= iterations w + (List.length items + list_sum (map cost items)).
Proof.
  induction items as [|x items IH]; intros s w.
  - simpl. lia.
  - cbn [for_in]. unfold bind at 1. cbn [tick].
    set (w1 := {| the_spec := the_spec w; can_write := can_write w;
                  written := written w; iterations := Datatypes.S (iterations w) |}).
    unfold bind.
    pose proof (body_cost x s w1) as Hb.
    destruct (body x s w1) as [[s'|err] w2]; cbn [snd] in *.
    + pose proof (IH s' w2). subst w1. cbn [iterations] in Hb. cbn [map list_sum List.length fold_right]. 
      unfold list_sum in *. cbn [List.length map fold_right]. lia.
    + subst w1. cbn [iterations] in Hb. unfold list_sum. cbn [List.length map fold_right]. lia.
Qed.

End LoopCost.

(** ** The helpers *)

Lemma get_header_0 (s : string) : get_header s 0 = Ok (header_text "=" s).
Proof. reflexivity. Qed.

Lemma get_header_1 (s : string) : get_header s 1 = Ok (header_text "-" s).
Proof. reflexivity. Qed.

Lemma get_header_2 (s : string) : get_header s 2 = Ok (header_text "~" s).
Proof. reflexivity. Qed.

Lemma rst_add_icon_description : rst_add_icon "description" = Ok (icon "description").
Proof. reflexivity. Qed.

Lemma rst_add_icon_singleton : rst_add_icon "singleton" = Ok (icon "singleton").
Proof. reflexivity. Qed.

Lemma rst_add_icon_required : rst_add_icon "required" = Ok (icon "required").
Proof. reflexivity. Qed.

Lemma rst_add_icon_schema : rst_add_icon "schema" = Ok (icon "schema").
Proof. reflexivity. Qed.

Lemma fold_left_max (l : list nat) (a : nat) :
  fold_left Nat.max l a = Nat.max a (fold_right Nat.max 0 l).
Proof.
  revert a; induction l as [|x l IH]; intros a; simpl; [lia|].
  rewrite IH. lia.
Qed.

Lemma max_cons (x : nat) (l : list nat) :
  max (x :: l) = Ok (fold_right Nat.max 0 (x :: l)).
Proof. unfold max. now rewrite fold_left_max. Qed.

Lemma is_max_fold_right (x : nat) (l : list nat) :
  is_max (fold_right Nat.max 0 (x :: l)) (x :: l).
Proof.
  revert x; induction l as [|y l IH]; intros x.
  - simpl. split; [left; lia | intros z [->|[]]; lia].
  - destruct (IH y) as [Hin Hle]. destruct (IH x) as [Hin' Hle'].
    cbn [fold_right] in *. split.
    + destruct (Nat.max_spec x (Nat.max y (fold_right Nat.max 0 l))) as [[_ ->]|[_ ->]].
      * right. exact Hin.
      * left. reflexivity.
    + intros z [->|Hz]; [lia|]. specialize (Hle z Hz). lia.
Qed.

Lemma schemadict2rst_text (sd : schemadict) (w : world) :
  exists w',
    schemadict2rst sd w
    = (match sd with [] => Raise ValueError | _ :: _ => Ok (table_text sd) end, w')
    /\ quiet w w'.
Proof.
  destruct sd as [|entry sd].
  - exists w. split; [reflexivity | apply quiet_refl].
  - unfold schemadict2rst, table_text, key_width, value_width.
    set (items := entry :: sd).
    unfold bind at 1, lift at 1.
    rewrite !map_map. subst items. cbn [map]. rewrite max_cons.
    unfold bind at 1, lift at 1. rewrite max_cons.
    set (n1 := fold_right Nat.max 0 _ + 4).
    set (n2 := fold_right Nat.max 0 _).
    unfold bind.
    destruct (for_in_text (fun '(key, schema) rst =>
                ret (rst ++ center ("**" ++ key ++ "**") n1 " " ++ " "
                         ++ center (str schema) n2 " " ++ nl))
              (fun entry => Some (table_row n1 n2 entry)) ValueError) with
      (items := entry :: sd) (rst := blank ++ table_border n1 n2) (w := w) as (w' & E & Q).
    { intros [key schema] rst w0. exists w0. split; [reflexivity | apply quiet_refl]. }
    unfold table_border in E at 1. rewrite E, sections_total.
    exists w'. split; [|exact Q].
    unfold ret. cbn [map]. unfold table_border, blank. 
    rewrite !append_assoc. reflexivity.
Qed.

Lemma gen_feature_graph_text (w : world) :
  exists w',
    gen_feature_graph w = (Ok (feature_graph_text (spec_keys (the_spec w))), w')
    /\ quiet w w'.
Proof.
  unfold gen_feature_graph, feature_graph_text.
  unfold bind at 1, keys at 1. unfold bind.
  destruct (for_in_text (fun '(i, key) rst =>
              ret (rst ++ "    A --> F" ++ str_of_nat i ++ "[" ++ key ++ "]" ++ nl))
            (fun item => Some ((fun '(i, key) => edge i key) item)) KeyError) with
    (items := enumerate (spec_keys (the_spec w)))
    (rst := ((blank ++ ".. mermaid::" ++ nl ++ nl) ++ "    graph TD" ++ nl) ++ "    A[Model]" ++ nl)
    (w := w) as (w' & E & Q).
  { intros [i key] rst w0. exists w0. split; [reflexivity | apply quiet_refl]. }
  rewrite E, sections_total.
  exists w'. split; [|exact Q]. unfold ret, graph_preamble, blank.
  rewrite !append_assoc. reflexivity.
Qed.

(** ** The text of the sections *)

Ltac step_lift :=
  unfold bind at 1, lift at 1;
  rewrite ?get_header_0, ?get_header_1, ?get_header_2,
          ?rst_add_icon_description, ?rst_add_icon_singleton,
          ?rst_add_icon_required, ?rst_add_icon_schema.

Ltac same_text :=
  unfold ret, singleton_text, required_text, blank;
  rewrite ?append_assoc; rewrite ?append_blank_r; reflexivity.

Lemma description_step (main : option string) (rst : string) (w : world) :
  (if truthy (get main blank)
   then
     text <- lift (Ok (icon "description")) ;;
     ret ((rst ++ text ++ "*Description*: ") ++ get main blank ++ nl ++ nl)
   else ret rst) w
  = (Ok (rst ++ description_text main), w).
Proof.
  destruct main as [[|c text]|]; cbn [get truthy description_text].
  - unfold ret, blank. now rewrite append_blank_r.
  - step_lift. unfold ret. now rewrite !append_assoc.
  - unfold ret, blank. now rewrite append_blank_r.
Qed.

Lemma description_step' (main : option string) (rst : string) (w : world) :
  (if truthy (get main blank)
   then
     text <- lift (Ok (icon "description")) ;;
     ret (((rst ++ text ++ "*Description*: ") ++ get main blank) ++ nl ++ nl)
   else ret rst) w
  = (Ok (rst ++ description_text main), w).
Proof.
  destruct main as [[|c text]|]; cbn [get truthy description_text].
  - unfold ret, blank. now rewrite append_blank_r.
  - step_lift. unfold ret. now rewrite !append_assoc.
  - unfold ret, blank. now rewrite append_blank_r.
Qed.

Lemma doc2rst_property_text (f_name : string) (item : string * p_dict) (rst : string) (w : world) :
  exists w',
    doc2rst_property f_name item rst w
    = (match property_section f_name item with
       | Some t => Ok (rst ++ t)
       | None => Raise KeyError
       end, w')
    /\ quiet w w'.
Proof.
  destruct item as [p_name pd].
  unfold doc2rst_property, property_section. cbn [fst snd].
  step_lift. cbv zeta.
  unfold bind at 1.
  rewrite (description_step (p_main pd)
             ((rst ++ header_text "~" ("Property: " ++ p_name))
              ++ gen_graph_property_relation p_name f_name) w).
  step_lift.
  unfold bind at 1, lift at 1.
  destruct (p_singleton pd) as [s|]; cbn [getitem];
    [|exists w; split; [reflexivity | apply quiet_refl]].
  step_lift.
  unfold bind at 1, lift at 1.
  destruct (p_required pd) as [r|]; cbn [getitem];
    [|exists w; split; [reflexivity | apply quiet_refl]].
  destruct (p_schema pd) as [[|entry sd]|]; cbn [schema_text].
  - exists w. split; [same_text | apply quiet_refl].
  - step_lift. unfold bind.
    destruct (schemadict2rst_text (entry :: sd) w) as (w' & E & Q). rewrite E.
    exists w'. split; [same_text | exact Q].
  - exists w. split; [same_text | apply quiet_refl].
Qed.

Lemma doc2rst_feature_text (item : string * f_dict) (rst : string) (w : world) :
  exists w',
    doc2rst_feature item rst w
    = (match feature_section item with
       | Some t => Ok (rst ++ t)
       | None => Raise KeyError
       end, w')
    /\ quiet w w'.
Proof.
  destruct item as [f_name fd].
  unfold doc2rst_feature, feature_section. cbn [fst snd].
  destruct (startswith f_name "$").
  { exists w. split; [same_text | apply quiet_refl]. }
  step_lift. cbv zeta.
  unfold bind at 1.
  rewrite (description_step' (f_main fd) (rst ++ header_text "-" ("Feature: " ++ f_name)) w).
  step_lift.
  unfold bind at 1, lift at 1.
  destruct (f_singleton fd) as [s|]; cbn [getitem];
    [|exists w; split; [reflexivity | apply quiet_refl]].
  step_lift.
  unfold bind at 1, lift at 1.
  destruct (f_required fd) as [r|]; cbn [getitem];
    [|exists w; split; [reflexivity | apply quiet_refl]].
  unfold bind, lift.
  destruct (f_sub fd) as [sub|]; cbn [getitem];
    [|exists w; split; [reflexivity | apply quiet_refl]].
  match goal with
  | |- context [for_in sub _ ?r w] =>
      destruct (for_in_text (doc2rst_property f_name) (property_section f_name) KeyError
                  (doc2rst_property_text f_name) sub r w) as (w' & E & Q)
  end.
  rewrite E. exists w'. split; [|exact Q].
  destruct (sections (property_section f_name) sub); [same_text | reflexivity].
Qed.

(** The generated text, before any file is written. *)
Lemma doc2rst_None (w : world) :
  exists w',
    doc2rst None w = (to_result (model_api_text (the_spec w)), w') /\ quiet w w'.
Proof.
  unfold doc2rst, model_api_text.
  unfold bind at 1, get_docs at 1.
  step_lift.
  unfold bind at 1.
  destruct (gen_feature_graph_text w) as (w1 & E1 & Q1). rewrite E1.
  unfold bind.
  match goal with
  | |- context [for_in ?d _ ?r w1] =>
      destruct (for_in_text doc2rst_feature feature_section KeyError
                  doc2rst_feature_text d r w1) as (w2 & E2 & Q2)
  end.
  rewrite E2. exists w2. split; [|eauto using quiet_trans].
  destruct (sections feature_section (spec_docs (the_spec w))); cbn [to_result];
    [same_text | reflexivity].
Qed.

(** The same, followed by the two writes. *)
Lemma doc2rst_Some (dir_path : string) (w : world) :
  exists w',
    quiet w w' /\
    doc2rst (Some dir_path) w
    = match model_api_text (the_spec w) with
      | Some rst =>
          (_ <- write_file (os_path_join dir_path "model_api_general.rst") RST_GENERAL_USAGE ;;
           _ <- write_file (os_path_join dir_path "model_api.rst") rst ;;
           ret rst) w'
      | None => (Raise KeyError, w')
      end.
Proof.
  unfold doc2rst, model_api_text.
  unfold bind at 1, get_docs at 1.
  step_lift.
  unfold bind at 1.
  destruct (gen_feature_graph_text w) as (w1 & E1 & Q1). rewrite E1.
  unfold bind at 1.
  match goal with
  | |- context [for_in ?d _ ?r w1] =>
      destruct (for_in_text doc2rst_feature feature_section KeyError
                  doc2rst_feature_text d r w1) as (w2 & E2 & Q2)
  end.
  rewrite E2. exists w2. split; [eauto using quiet_trans|].
  destruct (sections feature_section (spec_docs (the_spec w))); [|reflexivity].
  unfold blank. rewrite !append_assoc. reflexivity.
Qed.

(** ** What a call returns and writes *)

Lemma doc2rst_outcome (dir_path : option string) (w : world) :
  fst (doc2rst dir_path w) = returned dir_path (can_write w) (model_api_text (the_spec w))
  /\ written (snd (doc2rst dir_path w))
     = (written w ++ files dir_path (can_write w) (model_api_text (the_spec w)))%list.
Proof.
  destruct dir_path as [d|].
  - destruct (doc2rst_Some d w) as (w' & (Qs & Qc & Qw) & E). rewrite E.
    unfold returned, files.
    destruct (model_api_text (the_spec w)) as [rst|]; cbn [fst snd];
      [|rewrite Qw, app_nil_r; split; reflexivity].
    unfold bind, write_file, general_path, api_path. cbn [can_write].
    rewrite Qc.
    destruct (can_write w (os_path_join d "model_api_general.rst"));
      cbn [fst snd andb can_write written];
      [|rewrite Qw, app_nil_r; split; reflexivity].
    destruct (can_write w (os_path_join d "model_api.rst")); cbn [fst snd written];
      rewrite Qw, <- ?app_assoc; split; reflexivity.
  - destruct (doc2rst_None w) as (w' & E & (Qs & Qc & Qw)). rewrite E.
    unfold returned, files. cbn [fst snd].
    destruct (model_api_text (the_spec w)); rewrite Qw, app_nil_r; split; reflexivity.
Qed.

Lemma sections_skip {A : Type} (section : A -> option string) (x : A) (pre post : list A) :
  section x = Some blank ->
  sections section (pre ++ x :: post) = sections section (pre ++ post).
Proof.
  intros Hx. induction pre as [|y pre IH]; cbn [app sections].
  - rewrite Hx. now destruct (sections section post).
  - now rewrite IH.
Qed.

Lemma complete_property_sections (f_name : string) (sub : list (string * p_dict)) :
  forallb property_complete sub = true ->
  exists text, sections (property_section f_name) sub = Some text.
Proof.
  induction sub as [|[p_name pd] sub IH]; cbn [forallb sections]; intros H.
  - eexists; reflexivity.
  - apply andb_true_iff in H as [Hp Hsub].
    destruct (IH Hsub) as (text & ->).
    unfold property_complete, property_section in *. cbn [fst snd] in *.
    destruct (p_singleton pd); [|discriminate].
    destruct (p_required pd); [|discriminate].
    eexists; reflexivity.
Qed.

Lemma complete_feature_sections (doc : list (string * f_dict)) :
  forallb feature_complete doc = true ->
  exists text, sections feature_section doc = Some text.
Proof.
  induction doc as [|[f_name fd] doc IH]; cbn [forallb sections]; intros H.
  - eexists; reflexivity.
  - apply andb_true_iff in H as [Hf Hdoc].
    destruct (IH Hdoc) as (text & ->).
    unfold feature_complete, feature_section in *. cbn [fst snd] in *.
    destruct (startswith f_name "$"); [eexists; reflexivity|].
    cbn [orb] in Hf.
    destruct (f_singleton fd); [|discriminate].
    destruct (f_required fd); [|discriminate].
    destruct (f_sub fd) as [sub|]; [|discriminate].
    cbn [is_some andb] in Hf.
    destruct (complete_property_sections f_name sub Hf) as (props & ->).
    eexists; reflexivity.
Qed.

Lemma complete_model_api_text (m : mspec) :
  docs_complete m = true -> exists rst, model_api_text m = Some rst.
Proof.
  intros H. unfold model_api_text.
  destruct (complete_feature_sections _ H) as (text & ->). eexists; reflexivity.
Qed.

(** ** Loop bodies entered *)

Section Costs.

Context {A B : Type}.

Lemma costs_ret (a : A) : costs (ret a) 0.
Proof. intros w; cbn; lia. Qed.

Lemma costs_lift (r : result A) : costs (lift r) 0.
Proof. intros w; cbn; lia. Qed.

Lemma costs_bind (m : M A) (k : A -> M B) (a b : nat) :
  costs m a -> (forall x, costs (k x) b) -> costs (bind m k) (a + b).
Proof.
  intros Hm Hk w. unfold bind. specialize (Hm w).
  destruct (m w) as [[x|err] w']; cbn [snd] in *.
  - specialize (Hk x w'). lia.
  - lia.
Qed.

Lemma costs_bind_l (m : M A) (k : A -> M B) (b : nat) :
  costs m 0 -> (forall x, costs (k x) b) -> costs (bind m k) b.
Proof. intros Hm Hk. exact (costs_bind m k 0 b Hm Hk). Qed.

Lemma costs_bind_r (m : M A) (k : A -> M B) (a : nat) :
  costs m a -> (forall x, costs (k x) 0) -> costs (bind m k) a.
Proof.
  intros Hm Hk w. pose proof (costs_bind m k a 0 Hm Hk w). lia.
Qed.

Lemma costs_bind_lift (r : result A) (k : A -> M B) (b : nat) :
  (forall x, r = Ok x -> costs (k x) b) -> costs (bind (lift r) k) b.
Proof.
  intros Hk w. unfold bind, lift. destruct r as [x|err]; cbn [snd].
  - now apply Hk.
  - lia.
Qed.

Lemma costs_weaken (m : M A) (a b : nat) : a <= b -> costs m a -> costs m b.
Proof. intros Hab Hm w. specialize (Hm w). lia. Qed.

End Costs.

Lemma costs_write_file (file_path text : string) : costs (write_file file_path text) 0.
Proof. intros w. unfold write_file. destruct (can_write w file_path); cbn; lia. Qed.

Lemma costs_for_in {A S : Type} (body : A -> S -> M S) (cost : A -> nat) (items : list A) (s : S) :
  (forall x s', costs (body x s') (cost x)) ->
  costs (for_in items body s) (List.length items + list_sum (map cost items)).
Proof. intros Hb w. apply for_in_cost. intros x s' w'. apply Hb. Qed.

Lemma list_sum_zero {A : Type} (items : list A) : list_sum (map (fun _ => 0) items) = 0.
Proof. induction items; simpl; auto. Qed.

Lemma costs_schemadict2rst (sd : schemadict) : costs (schemadict2rst sd) (List.length sd).
Proof.
  unfold schemadict2rst.
  apply costs_bind_l; [apply costs_lift | intros m].
  apply costs_bind_l; [apply costs_lift | intros max_value_len].
  apply costs_bind_r; [|intros rst; apply costs_ret].
  eapply costs_weaken; [|apply (costs_for_in _ (fun _ => 0))].
  - rewrite list_sum_zero. lia.
  - intros [key schema] rst. apply costs_ret.
Qed.

Lemma costs_doc2rst_property (f_name : string) (item : string * p_dict) (rst : string) :
  costs (doc2rst_property f_name item rst) (schema_size (p_schema (snd item))).
Proof.
  destruct item as [p_name pd]. unfold doc2rst_property. cbn [snd].
  apply costs_bind_l; [apply costs_lift | intros h].
  apply costs_bind_l.
  { destruct (truthy (get (p_main pd) blank)); [|apply costs_ret].
    apply costs_bind_l; [apply costs_lift | intros i; apply costs_ret]. }
  intros rst1.
  apply costs_bind_l; [apply costs_lift | intros i1].
  apply costs_bind_l; [apply costs_lift | intros s].
  apply costs_bind_l; [apply costs_lift | intros i2].
  apply costs_bind_l; [apply costs_lift | intros r].
  destruct (p_schema pd) as [[|entry sd]|]; cbn [schema_size];
    try (eapply costs_weaken; [|apply costs_ret]; lia).
  apply costs_bind_l; [apply costs_lift | intros i3].
  apply costs_bind_r; [apply costs_schemadict2rst | intros table; apply costs_ret].
Qed.

Lemma costs_doc2rst_feature (item : string * f_dict) (rst : string) :
  costs (doc2rst_feature item rst) (feature_size item - 1).
Proof.
  destruct item as [f_name fd]. unfold doc2rst_feature, feature_size. cbn [snd].
  destruct (startswith f_name "$"); [eapply costs_weaken; [|apply costs_ret]; lia|].
  apply costs_bind_l; [apply costs_lift | intros h].
  apply costs_bind_l.
  { destruct (truthy (get (f_main fd) blank)); [|apply costs_ret].
    apply costs_bind_l; [apply costs_lift | intros i; apply costs_ret]. }
  intros rst1.
  apply costs_bind_l; [apply costs_lift | intros i1].
  apply costs_bind_l; [apply costs_lift | intros s].
  apply costs_bind_l; [apply costs_lift | intros i2].
  apply costs_bind_l; [apply costs_lift | intros r].
  apply costs_bind_lift. intros sub Hsub.
  destruct (f_sub fd) as [sub'|]; [|discriminate].
  cbn [getitem] in Hsub. injection Hsub as ->.
  eapply costs_weaken; [|apply (costs_for_in _ (fun item => schema_size (p_schema (snd item))))].
  - assert (H : forall l : list (string * p_dict),
                List.length l + list_sum (map (fun item => schema_size (p_schema (snd item))) l)
                = list_sum (map property_size l)).
    { induction l as [|x l IH]; [reflexivity|].
      unfold list_sum, property_size in *. cbn [List.length map fold_right]. lia. }
    rewrite H. lia.
  - intros item rst'. apply costs_doc2rst_property.
Qed.

Lemma length_enumerate_from {A : Type} (l : list A) (i : nat) :
  List.length (enumerate_from i l) = List.length l.
Proof. revert i; induction l as [|x l IH]; intros i; simpl; [reflexivity | now rewrite IH]. Qed.

Lemma cost_gen_feature_graph (w : world) :
  iterations (snd (gen_feature_graph w))
  <= iterations w + List.length (spec_keys (the_spec w)).
Proof.
  unfold gen_feature_graph. unfold bind at 1, keys.
  match goal with
  | |- context [bind (for_in ?items ?body ?rst) ?k] =>
      assert (H : costs (bind (for_in items body rst) k) (List.length items))
  end.
  { apply costs_bind_r; [|intros rst; apply costs_ret].
    eapply costs_weaken; [|apply (costs_for_in _ (fun _ => 0))].
    - rewrite list_sum_zero. lia.
    - intros [i key] rst. apply costs_ret. }
  specialize (H w). unfold enumerate in H at 2. rewrite length_enumerate_from in H. exact H.
Qed.

Lemma cost_doc2rst (dir_path : option string) (w : world) :
  iterations (snd (doc2rst dir_path w)) <= iterations w + walk_size (the_spec w).
Proof.
  unfold doc2rst, walk_size.
  unfold bind at 1, get_docs. unfold bind at 1, lift. rewrite get_header_0.
  unfold bind at 1.
  pose proof (cost_gen_feature_graph w) as Hg.
  assert (Hq : forall g w1, gen_feature_graph w = (Ok g, w1) -> the_spec w1 = the_spec w).
  { intros g w1 E. destruct (gen_feature_graph_text w) as (w' & E' & Q).
    rewrite E in E'. injection E' as _ <-. apply Q. }
  destruct (gen_feature_graph w) as [[g|err] w1]; cbn [snd] in Hg |- *; [|lia].
  match goal with
  | |- context [bind (for_in ?items ?body ?rst) ?k] =>
      assert (H : costs (bind (for_in items body rst) k) (list_sum (map feature_size items)))
  end.
  { apply costs_bind_r.
    - eapply costs_weaken; [|apply (costs_for_in _ (fun item => feature_size item - 1))].
      + induction (spec_docs (the_spec w)) as [|x l IH]; [reflexivity|].
        unfold list_sum, feature_size in *. cbn [List.length map fold_right]. lia.
      + intros item rst. apply costs_doc2rst_feature.
    - intros rst. destruct dir_path as [d|]; [|apply costs_ret].
      apply costs_bind_l; [apply costs_write_file | intros _].
      apply costs_bind_l; [apply costs_write_file | intros _].
      apply costs_ret. }
  specialize (H w1). lia.
Qed.

(** ** The sections in the generated text *)

Lemma nth_error_edges (mspec_keys : list string) :
  forall start i key,
    nth_error mspec_keys i = Some key ->
    nth_error (map (fun '(i, key) => edge i key) (enumerate_from start mspec_keys)) i
    = Some (edge (start + i) key).
Proof.
  induction mspec_keys as [|k l IH]; intros start [|i] key H; try discriminate.
  - injection H as ->. cbn. now rewrite Nat.add_0_r.
  - cbn [enumerate_from map nth_error]. rewrite (IH (S start) i key H).
    now rewrite Nat.add_succ_r.
Qed.

Lemma Some_eq {A : Type} (a b : A) : Some a = Some b -> a = b.
Proof. congruence. Qed.


Lemma description_text_part (main : option string) :
  description_part main (description_text main).
Proof.
  destruct main as [[|c text]|]; cbn [description_text].
  - right. auto.
  - left. exists (String c text). repeat split. discriminate.
  - right. auto.
Qed.

Lemma schema_text_part (schema : option schemadict) :
  schema_part schema (schema_text schema).
Proof.
  destruct schema as [[|entry sd]|]; cbn [schema_text].
  - right. auto.
  - left. exists (entry :: sd). repeat split. discriminate.
  - right. auto.
Qed.

Lemma property_sections_rendered (f_name : string) (sub : list (string * p_dict)) :
  forall text,
    sections (property_section f_name) sub = Some text ->
    exists properties,
      text = cat properties /\ Forall2 (property_rendered f_name) sub properties.
Proof.
  induction sub as [|item sub IH]; intros text Hs; cbn [sections] in Hs.
  - injection Hs as <-. exists []. split; [reflexivity | constructor].
  - destruct (property_section f_name item) as [a|] eqn:Ha; [|discriminate].
    destruct (sections (property_section f_name) sub) as [rest|]; [|discriminate].
    injection Hs as <-.
    destruct (IH rest eq_refl) as (properties & -> & Hall).
    exists (a :: properties). split; [reflexivity|].
    constructor; [|exact Hall].
    unfold property_section in Ha.
    destruct (p_singleton (snd item)) as [s|] eqn:Hsing; [|discriminate].
    destruct (p_required (snd item)) as [r|] eqn:Hreq; [|discriminate].
    injection Ha as <-.
    exists s, r, (description_text (p_main (snd item))), (schema_text (p_schema (snd item))).
    repeat split; auto using description_text_part, schema_text_part.
Qed.

Lemma feature_sections_rendered (doc : list (string * f_dict)) :
  forall text,
    sections feature_section doc = Some text ->
    exists features,
      text = cat features /\ Forall2 feature_rendered (rendered doc) features.
Proof.
  induction doc as [|item doc IH]; intros text Hs; cbn [sections] in Hs.
  - injection Hs as <-. exists []. split; [reflexivity | constructor].
  - destruct (feature_section item) as [a|] eqn:Ha; [|discriminate].
    destruct (sections feature_section doc) as [rest|]; [|discriminate].
    injection Hs as <-.
    destruct (IH rest eq_refl) as (features & -> & Hall).
    unfold feature_section in Ha. unfold rendered. cbn [filter].
    destruct (startswith (fst item) "$") eqn:Hname; cbn [negb].
    + injection Ha as <-. exists features. split; [reflexivity | exact Hall].
    + destruct (f_singleton (snd item)) as [s|] eqn:Hsing; [|discriminate].
      destruct (f_required (snd item)) as [r|] eqn:Hreq; [|discriminate].
      destruct (f_sub (snd item)) as [sub|] eqn:Hsub; [|discriminate].
      destruct (sections (property_section (fst item)) sub) as [props|] eqn:Hprops;
        [|discriminate].
      injection Ha as <-.
      destruct (property_sections_rendered _ _ _ Hprops) as (properties & -> & Hp).
      exists ((header_text "-" ("Feature: " ++ fst item)
               ++ description_text (f_main (snd item))
               ++ singleton_text s ++ required_text r ++ cat properties) :: features).
      split; [reflexivity|].
      constructor; [|exact Hall].
      exists s, r, sub, (description_text (f_main (snd item))), properties.
      repeat split; auto using description_text_part.
Qed.

(** * The claims *)







(** C3, as stated, fails: with a [dir_path], [doc2rst] writes no file
    when the usage guide cannot be written, and one file, not two, when
    only [model_api.rst] cannot; in both cases it raises [OSError] and
    returns nothing. *)
Lemma doc2rst_dir_path_fewer_files :
  (fst (doc2rst (Some "docs") (Sample.start Sample.sparse Sample.read_only)) = Raise OSError
   /\ written (snd (doc2rst (Some "docs") (Sample.start Sample.sparse Sample.read_only))) = [])
  /\ (fst (doc2rst (Some "docs") (Sample.start Sample.sparse Disk.general_only)) = Raise OSError
      /\ map fst (written (snd (doc2rst (Some "docs")
                                  (Sample.start Sample.sparse Disk.general_only))))
         = ["docs/model_api_general.rst"]).
Proof. repeat split; vm_compute; reflexivity. Qed.

(** C3, amended: without [dir_path], [doc2rst] writes nothing.  With a
    [dir_path], when the text is generated without an exception and both
    files can be written, it writes exactly two files,
    [model_api_general.rst] with the fixed usage guide and then
    [model_api.rst] with the generated text, and returns the same text
    as without [dir_path]. *)
Theorem doc2rst_files (w : world) :
  written (snd (doc2rst None w)) = written w /\
  forall (d rst : string),
    fst (doc2rst None w) = Ok rst ->
    can_write w (os_path_join d "model_api_general.rst") = true ->
    can_write w (os_path_join d "model_api.rst") = true ->
    fst (doc2rst (Some d) w) = Ok rst /\
    written (snd (doc2rst (Some d) w))
    = (written w ++ [(os_path_join d "model_api_general.rst", RST_GENERAL_USAGE);
                     (os_path_join d "model_api.rst", rst)])%list.
Proof.
  destruct (doc2rst_outcome None w) as [R0 W0].
  split.
  - rewrite W0. unfold files.
    destruct (model_api_text (the_spec w)); apply app_nil_r.
  - intros d rst Hrst Hg Ha.
    destruct (doc2rst_outcome (Some d) w) as [R1 W1].
    rewrite R0 in Hrst. rewrite R1, W1. unfold returned, files in *.
    destruct (model_api_text (the_spec w)) as [text|]; [|discriminate].
    injection Hrst as ->.
    unfold general_path, api_path. rewrite Hg, Ha. split; reflexivity.
Qed.

Lemma doc2rst_files_witness :
  fst (doc2rst (Some "docs") (Sample.start Sample.aircraft Sample.writable))
  = fst (doc2rst None (Sample.start Sample.aircraft Sample.writable))
  /\ map fst (written (snd (doc2rst (Some "docs") (Sample.start Sample.aircraft Sample.writable))))
     = ["docs/model_api_general.rst"; "docs/model_api.rst"].
Proof.
  destruct (fst (doc2rst None (Sample.start Sample.aircraft Sample.writable)))
    as [rst|e] eqn:E; [|vm_compute in E; discriminate].
  destruct (doc2rst_files (Sample.start Sample.aircraft Sample.writable)) as [_ H].
  destruct (H "docs" rst E eq_refl eq_refl) as [R W].
  rewrite R, W. split; reflexivity.
Defined.

(** C4: every feature that is rendered, and every property of it, has a
    [*Singleton*: <flag>] and a [*Required*: <flag>] line with the flags
    of the specification; its section has a [*Description*] line exactly
    when the ['main'] text is there and not empty, and the section of a
    property has a [*Schema*] table exactly when its ['schema'] dict is
    there and not empty. *)
Theorem doc2rst_flags_and_optional_parts (w : world) :
  docs_complete (the_spec w) = true ->
  exists rst features,
    fst (doc2rst None w) = Ok rst
    /\ rst = header_text "=" "Model" ++ RST_INTRO_MODEL_API
             ++ feature_graph_text (spec_keys (the_spec w)) ++ cat features
    /\ Forall2 feature_rendered (rendered (spec_docs (the_spec w))) features.
Proof.
  intros Hc.
  destruct (complete_feature_sections _ Hc) as (body & Hbody).
  destruct (feature_sections_rendered _ _ Hbody) as (features & -> & Hall).
  exists (header_text "=" "Model" ++ RST_INTRO_MODEL_API
          ++ feature_graph_text (spec_keys (the_spec w)) ++ cat features), features.
  split; [|split; [reflexivity | exact Hall]].
  destruct (doc2rst_outcome None w) as [R _]. rewrite R.
  unfold model_api_text. now rewrite Hbody.
Qed.

Lemma doc2rst_flags_and_optional_parts_witness :
  exists rst features,
    fst (doc2rst None (Sample.start Sample.with_hidden Sample.writable)) = Ok rst
    /\ rst = header_text "=" "Model" ++ RST_INTRO_MODEL_API
             ++ feature_graph_text ["wing"; "$global"] ++ cat features
    /\ Forall2 feature_rendered [("wing", Sample.wing)] features.
Proof.
  exact (doc2rst_flags_and_optional_parts
           (Sample.start Sample.with_hidden Sample.writable) eq_refl).
Defined.

(** C5: [gen_feature_graph] returns a mermaid [graph TD] diagram with the
    node [A[Model]] and exactly one edge [A --> Fi[key]] per key of
    [mspec.keys], in the order of the keys, [i] being the position of
    the key. *)
Theorem gen_feature_graph_edges (w : world) :
  exists edges,
    fst (gen_feature_graph w)
    = Ok (".. mermaid::" ++ nl ++ nl ++ "    graph TD" ++ nl ++ "    A[Model]" ++ nl
          ++ cat edges ++ nl ++ nl) /\
    List.length edges = List.length (spec_keys (the_spec w)) /\
    forall i key,
      nth_error (spec_keys (the_spec w)) i = Some key ->
      nth_error edges i = Some ("    A --> F" ++ str_of_nat i ++ "[" ++ key ++ "]" ++ nl).
Proof.
  exists (map (fun '(i, key) => edge i key) (enumerate (spec_keys (the_spec w)))).
  split; [|split].
  - destruct (gen_feature_graph_text w) as (w' & E & _). rewrite E.
    unfold feature_graph_text, graph_preamble. cbn [fst].
    now rewrite !append_assoc.
  - rewrite length_map. apply length_enumerate_from.
  - intros i key H. exact (nth_error_edges _ 0 i key H).
Qed.

Lemma gen_feature_graph_edges_witness :
  exists edges,
    fst (gen_feature_graph (Sample.start Sample.with_hidden Sample.writable))
    = Ok (".. mermaid::" ++ nl ++ nl ++ "    graph TD" ++ nl ++ "    A[Model]" ++ nl
          ++ cat edges ++ nl ++ nl) /\
    nth_error edges 1 = Some ("    A --> F1[$global]" ++ nl).
Proof.
  destruct (gen_feature_graph_edges (Sample.start Sample.with_hidden Sample.writable))
    as (edges & E & _ & H).
  exists edges. split; [exact E|].
  apply (H 1 "$global"). reflexivity.
Defined.

(** C7: [doc2rst] terminates on every specification: it yields a result
    after one walk, entering at most one loop body per key, per feature,
    per property and per schema entry. *)
Theorem doc2rst_terminates (dir_path : option string) (w : world) :
  exists r w',
    doc2rst dir_path w = (r, w') /\
    iterations w' <= iterations w + walk_size (the_spec w).
Proof.
  pose proof (cost_doc2rst dir_path w) as H.
  destruct (doc2rst dir_path w) as [r w']. exists r, w'. split; [reflexivity | exact H].
Qed.

(** C8: a feature whose name starts with [$] is skipped entirely: with or
    without it in the documentation, [doc2rst] returns the same and
    writes the same files, whatever the record of that feature holds. *)
Theorem doc2rst_skips_hidden (dir_path : option string) (w : world)
    (pre post : list (string * f_dict)) (f_name : string) (f_dict : f_dict) :
  spec_docs (the_spec w) = (pre ++ (f_name, f_dict) :: post)%list ->
  startswith f_name "$" = true ->
  fst (doc2rst dir_path w) = fst (doc2rst dir_path (with_docs w (pre ++ post)))
  /\ written (snd (doc2rst dir_path w))
     = written (snd (doc2rst dir_path (with_docs w (pre ++ post)))).
Proof.
  intros Hdocs Hname.
  destruct (doc2rst_outcome dir_path w) as [R W].
  destruct (doc2rst_outcome dir_path (with_docs w (pre ++ post))) as [R' W'].
  rewrite R, W, R', W'. cbn [with_docs the_spec can_write written].
  assert (E : model_api_text (the_spec w)
              = model_api_text {| spec_docs := (pre ++ post)%list;
                                  spec_keys := spec_keys (the_spec w) |}).
  { unfold model_api_text. cbn [spec_docs spec_keys]. rewrite Hdocs.
    rewrite (sections_skip feature_section (f_name, f_dict) pre post); [reflexivity|].
    unfold feature_section. cbn [fst]. now rewrite Hname. }
  rewrite E. split; reflexivity.
Qed.

Lemma doc2rst_skips_hidden_witness :
  fst (doc2rst None (Sample.start Sample.with_hidden Sample.writable))
  = fst (doc2rst None (with_docs (Sample.start Sample.with_hidden Sample.writable)
                         [("wing", Sample.wing)]))
  /\ written (snd (doc2rst None (Sample.start Sample.with_hidden Sample.writable)))
     = written (snd (doc2rst None (with_docs (Sample.start Sample.with_hidden Sample.writable)
                                     [("wing", Sample.wing)]))).
Proof.
  apply (doc2rst_skips_hidden None (Sample.start Sample.with_hidden Sample.writable)
           [("wing", Sample.wing)] [] "$global" Sample.bare).
  - reflexivity.
  - reflexivity.
Defined.


(** C10: [get_header] is defined for the levels 0, 1, 2 and 3 only, any
    other level raises [KeyError]; for a string [s] and one of these
    levels it returns [s], a newline, an underline of exactly [len(s)]
    copies of the character of the level ([=], [-], [~], [^]) and a
    blank line. *)
Theorem get_header_levels (s : string) (level : Z) :
  (forall c : ascii,
     In (level, c) [(0%Z, "="%char); (1%Z, "-"%char); (2%Z, "~"%char); (3%Z, "^"%char)] ->
     exists underline,
       get_header s level = Ok (s ++ nl ++ underline ++ nl ++ nl) /\
       String.length underline = String.length s /\
       forall i, i < String.length s -> String.get i underline = Some c)
  /\ ((level < 0 \/ 3 < level)%Z -> get_header s level = Raise KeyError).
Proof.
  split.
  - intros c Hin.
    exists (mul (String c EmptyString) (String.length s)).
    split; [|split].
    + cbn [In] in Hin.
      destruct Hin as [H|[H|[H|[H|[]]]]]; injection H as <- <-; reflexivity.
    + rewrite length_mul. cbn [String.length]. lia.
    + intros i Hi. now apply get_mul.
  - intros Hout. unfold get_header. cbn [lookup].
    destruct (Z.eqb_spec 0 level); [lia|].
    destruct (Z.eqb_spec 1 level); [lia|].
    destruct (Z.eqb_spec 2 level); [lia|].
    destruct (Z.eqb_spec 3 level); [lia|].
    reflexivity.
Qed.

Lemma get_header_levels_witness :
  (exists underline,
     get_header "Model" 0 = Ok ("Model" ++ nl ++ underline ++ nl ++ nl) /\
     String.length underline = 5 /\
     String.get 4 underline = Some "="%char)
  /\ get_header "Model" 4 = Raise KeyError.
Proof.
  split.
  - destruct (proj1 (get_header_levels "Model" 0) "="%char) as (u & E & L & G).
    + simpl. auto.
    + exists u. split; [exact E|]. split; [exact L|]. apply G. simpl. lia.
  - apply (proj2 (get_header_levels "Model" 4)). lia.
Defined.

(** * Further properties *)

(** ** Auxiliary facts *)

Lemma sections_app {A : Type} (section : A -> option string) (l1 l2 : list A) :
  forall text,
    sections section (l1 ++ l2) = Some text ->
    exists t1 t2,
      sections section l1 = Some t1 /\ sections section l2 = Some t2 /\ text = t1 ++ t2.
Proof.
  induction l1 as [|x l1 IH]; intros text Hs.
  - exists blank, text. repeat split. exact Hs.
  - cbn [app sections] in Hs |- *.
    destruct (section x) as [a|]; [|discriminate].
    destruct (sections section (l1 ++ l2)) as [rest|] eqn:Hrest; [|discriminate].
    apply Some_eq in Hs. subst text.
    destruct (IH rest eq_refl) as (t1 & t2 & -> & H2 & ->).
    exists (a ++ t1), t2. repeat split; [exact H2 | now rewrite append_assoc].
Qed.

Lemma sections_property_complete (f_name : string) (sub : list (string * p_dict)) :
  forall text,
    sections (property_section f_name) sub = Some text ->
    forallb property_complete sub = true.
Proof.
  induction sub as [|item sub IH]; intros text Hs; [reflexivity|].
  cbn [sections forallb] in *.
  destruct (property_section f_name item) as [a|] eqn:Ha; [|discriminate].
  destruct (sections (property_section f_name) sub) as [rest|]; [|discriminate].
  rewrite (IH rest eq_refl), andb_true_r.
  unfold property_section in Ha. unfold property_complete.
  destruct (p_singleton (snd item)); [|discriminate].
  destruct (p_required (snd item)); [reflexivity | discriminate].
Qed.

Lemma sections_feature_complete (doc : list (string * f_dict)) :
  forall text,
    sections feature_section doc = Some text ->
    forallb feature_complete doc = true.
Proof.
  induction doc as [|item doc IH]; intros text Hs; [reflexivity|].
  cbn [sections forallb] in *.
  destruct (feature_section item) as [a|] eqn:Ha; [|discriminate].
  destruct (sections feature_section doc) as [rest|]; [|discriminate].
  rewrite (IH rest eq_refl), andb_true_r.
  unfold feature_section in Ha. unfold feature_complete.
  destruct (startswith (fst item) "$"); [reflexivity|]. cbn [orb].
  destruct (f_singleton (snd item)); [|discriminate].
  destruct (f_required (snd item)); [|discriminate].
  destruct (f_sub (snd item)) as [sub|]; [|discriminate].
  destruct (sections (property_section (fst item)) sub) as [props|] eqn:Hp; [|discriminate].
  cbn [is_some andb]. exact (sections_property_complete _ _ _ Hp).
Qed.

Lemma incomplete_model_api_text (m : mspec) :
  docs_complete m = false -> model_api_text m = None.
Proof.
  intros H. unfold model_api_text.
  destruct (sections feature_section (spec_docs m)) as [body|] eqn:Hb; [|reflexivity].
  apply sections_feature_complete in Hb. unfold docs_complete in H. congruence.
Qed.

Lemma get_append_length (a b : string) (c : ascii) :
  String.get (String.length a) (a ++ String c b) = Some c.
Proof. induction a as [|x a IH]; [reflexivity | exact IH]. Qed.

Lemma sections_hidden (doc : list (string * f_dict)) :
  forallb (fun item => startswith (fst item) "$") doc = true ->
  sections feature_section doc = Some blank.
Proof.
  induction doc as [|item doc IH]; intros H; [reflexivity|].
  cbn [forallb sections] in *. apply andb_true_iff in H as [Hi Hd].
  rewrite (IH Hd). unfold feature_section. now rewrite Hi.
Qed.


Lemma cat_app (l1 l2 : list string) : cat (l1 ++ l2) = cat l1 ++ cat l2.
Proof.
  induction l1 as [|x l1 IH]; [reflexivity|].
  cbn [app cat fold_right] in *. fold (cat (l1 ++ l2)). fold (cat l1).
  now rewrite IH, append_assoc.
Qed.

Lemma get_after (a b : string) (c : ascii) (n : nat) :
  String.length a = n -> String.get n (a ++ String c b) = Some c.
Proof. intros <-. apply get_append_length. Qed.

(** ** The icons *)

(** X1: [rst_add_icon] knows six icon types; for each it returns the
    image directive of the file of that type, with the type as the
    alternative text, and for any other type it raises [KeyError]. *)
Theorem rst_add_icon_types (icon_type : string) :
  (forall file,
     In (icon_type, file)
        [("feature", "archive.svg"); ("property", "parking.svg");
         ("description", "notes.svg"); ("required", "lifebuoy.svg");
         ("singleton", "point.svg"); ("schema", "clipboard-check.svg")] ->
     rst_add_icon icon_type
     = Ok (".. image:: " ++ URL_ICONS ++ "/" ++ file ++ nl
           ++ "   :align: left" ++ nl
           ++ "   :alt: " ++ icon_type ++ nl ++ nl))
  /\ (~ In icon_type ["feature"; "property"; "description"; "required"; "singleton"; "schema"] ->
      rst_add_icon icon_type = Raise KeyError).
Proof.
  split.
  - intros file Hin. cbn [In] in Hin.
    destruct Hin as [H|[H|[H|[H|[H|[H|[]]]]]]]; injection H as <- <-; reflexivity.
  - intros Hout. unfold rst_add_icon. cbn [lookup].
    repeat match goal with
    | |- context [String.eqb ?k icon_type] =>
        destruct (String.eqb_spec k icon_type) as [E|_];
        [exfalso; apply Hout; rewrite <- E; simpl; tauto|]
    end.
    reflexivity.
Qed.

Lemma rst_add_icon_types_witness :
  rst_add_icon "schema"
  = Ok (".. image:: " ++ URL_ICONS ++ "/clipboard-check.svg" ++ nl
        ++ "   :align: left" ++ nl ++ "   :alt: schema" ++ nl ++ nl)
  /\ rst_add_icon "model" = Raise KeyError.
Proof.
  split.
  - apply (proj1 (rst_add_icon_types "schema") "clipboard-check.svg"). simpl. tauto.
  - apply (proj2 (rst_add_icon_types "model")). simpl.
    intros [H|[H|[H|[H|[H|[H|[]]]]]]]; discriminate H.
Defined.

(** ** Failures of [doc2rst] *)

(** X2: [doc2rst] raises [KeyError] exactly when a mandatory entry is
    missing in the record of a feature that is not skipped or of one of
    its properties; it has then written no file, with or without
    [dir_path]. *)
Theorem doc2rst_KeyError_iff (dir_path : option string) (w : world) :
  (fst (doc2rst dir_path w) = Raise KeyError <-> docs_complete (the_spec w) = false)
  /\ (docs_complete (the_spec w) = false ->
      written (snd (doc2rst dir_path w)) = written w).
Proof.
  destruct (doc2rst_outcome dir_path w) as [R W]. rewrite R, W.
  destruct (docs_complete (the_spec w)) eqn:Hc.
  - destruct (complete_model_api_text _ Hc) as (rst & ->).
    split; [|discriminate].
    split; [|discriminate].
    unfold returned. destruct dir_path as [d|]; [|discriminate].
    destruct (can_write w (general_path d) && can_write w (api_path d)); discriminate.
  - rewrite (incomplete_model_api_text _ Hc). unfold returned, files.
    split; [split; reflexivity|]. intros _. apply app_nil_r.
Qed.

Lemma doc2rst_KeyError_iff_witness :
  fst (doc2rst (Some "docs") (Sample.start Sample.incomplete Sample.writable)) = Raise KeyError
  /\ written (snd (doc2rst (Some "docs") (Sample.start Sample.incomplete Sample.writable))) = [].
Proof.
  destruct (doc2rst_KeyError_iff (Some "docs") (Sample.start Sample.incomplete Sample.writable))
    as [[_ H] W].
  split; [apply H; reflexivity | apply W; reflexivity].
Defined.


(** X4: the files are written one after the other and a failure undoes
    nothing.  When the usage guide cannot be written, [doc2rst] raises
    [OSError] and writes nothing; when it can but [model_api.rst] cannot,
    [doc2rst] raises [OSError] and the usage guide stays written. *)
Theorem doc2rst_write_failures (d : string) (w : world) (rst : string) :
  fst (doc2rst None w) = Ok rst ->
  (can_write w (os_path_join d "model_api_general.rst") = false ->
   fst (doc2rst (Some d) w) = Raise OSError
   /\ written (snd (doc2rst (Some d) w)) = written w)
  /\ (can_write w (os_path_join d "model_api_general.rst") = true ->
      can_write w (os_path_join d "model_api.rst") = false ->
      fst (doc2rst (Some d) w) = Raise OSError
      /\ written (snd (doc2rst (Some d) w))
         = (written w ++ [(os_path_join d "model_api_general.rst", RST_GENERAL_USAGE)])%list).
Proof.
  intros Hrst.
  destruct (doc2rst_outcome None w) as [R0 _]. rewrite R0 in Hrst.
  destruct (doc2rst_outcome (Some d) w) as [R W]. rewrite R, W.
  unfold returned, files, general_path, api_path in *.
  destruct (model_api_text (the_spec w)) as [text|]; [|discriminate].
  split.
  - intros ->. cbn [andb]. split; [reflexivity | apply app_nil_r].
  - intros -> ->. split; reflexivity.
Qed.

Lemma doc2rst_write_failures_witness :
  (fst (doc2rst (Some "docs") (Sample.start Sample.aircraft Sample.read_only)) = Raise OSError
   /\ written (snd (doc2rst (Some "docs") (Sample.start Sample.aircraft Sample.read_only))) = [])
  /\ (fst (doc2rst (Some "docs") (Sample.start Sample.aircraft Disk.general_only)) = Raise OSError
      /\ written (snd (doc2rst (Some "docs") (Sample.start Sample.aircraft Disk.general_only)))
         = [("docs/model_api_general.rst", RST_GENERAL_USAGE)]).
Proof.
  split.
  - destruct (fst (doc2rst None (Sample.start Sample.aircraft Sample.read_only)))
      as [rst|e] eqn:E; [|vm_compute in E; discriminate].
    exact (proj1 (doc2rst_write_failures "docs" _ rst E) eq_refl).
  - destruct (fst (doc2rst None (Sample.start Sample.aircraft Disk.general_only)))
      as [rst|e] eqn:E; [|vm_compute in E; discriminate].
    exact (proj2 (doc2rst_write_failures "docs" _ rst E) eq_refl eq_refl).
Defined.

(** X5: when [doc2rst] returns with a [dir_path], both files could be
    written and were written, in this order, and the text returned is
    the one returned without [dir_path]. *)
Theorem doc2rst_returns_after_writing (d : string) (w : world) (rst : string) :
  fst (doc2rst (Some d) w) = Ok rst ->
  fst (doc2rst None w) = Ok rst
  /\ can_write w (os_path_join d "model_api_general.rst") = true
  /\ can_write w (os_path_join d "model_api.rst") = true
  /\ written (snd (doc2rst (Some d) w))
     = (written w ++ [(os_path_join d "model_api_general.rst", RST_GENERAL_USAGE);
                      (os_path_join d "model_api.rst", rst)])%list.
Proof.
  intros Hrst.
  destruct (doc2rst_outcome None w) as [R0 _]. rewrite R0.
  destruct (doc2rst_outcome (Some d) w) as [R W]. rewrite R in Hrst. rewrite W.
  unfold returned, files, general_path, api_path in *.
  destruct (model_api_text (the_spec w)) as [text|]; [|discriminate].
  destruct (can_write w (os_path_join d "model_api_general.rst")); [|discriminate].
  destruct (can_write w (os_path_join d "model_api.rst")); [|discriminate].
  cbn [andb] in Hrst. apply (f_equal (fun r => match r with Ok t => t | Raise _ => blank end)) in Hrst.
  cbn beta iota in Hrst. subst text. repeat split.
Qed.

Lemma doc2rst_returns_after_writing_witness :
  fst (doc2rst None (Sample.start Sample.sparse Sample.writable))
  = fst (doc2rst (Some "docs/") (Sample.start Sample.sparse Sample.writable))
  /\ map fst (written (snd (doc2rst (Some "docs/") (Sample.start Sample.sparse Sample.writable))))
     = ["docs/model_api_general.rst"; "docs/model_api.rst"].
Proof.
  destruct (fst (doc2rst (Some "docs/") (Sample.start Sample.sparse Sample.writable)))
    as [rst|e] eqn:E; [|vm_compute in E; discriminate].
  destruct (doc2rst_returns_after_writing "docs/" _ rst E) as (R & _ & _ & W).
  rewrite R, W. split; reflexivity.
Defined.

(** ** The order of the sections *)



(** X7: the sections follow the order of the documentation: of two
    features that are not skipped, the header of the one that comes first
    in the documentation comes first in the text. *)
Theorem doc2rst_section_order (w : world) (pre mid post : list (string * f_dict))
    (f g : string) (fd gd : f_dict) :
  spec_docs (the_spec w) = (pre ++ (f, fd) :: mid ++ (g, gd) :: post)%list ->
  startswith f "$" = false ->
  startswith g "$" = false ->
  docs_complete (the_spec w) = true ->
  exists rst a b c,
    fst (doc2rst None w) = Ok rst
    /\ rst = a ++ header_text "-" ("Feature: " ++ f)
             ++ b ++ header_text "-" ("Feature: " ++ g) ++ c.
Proof.
  intros Hdocs Hf Hg Hc.
  destruct (doc2rst_outcome None w) as [R _]. rewrite R.
  unfold returned, model_api_text. unfold docs_complete in Hc.
  destruct (complete_feature_sections _ Hc) as (body & Hbody). rewrite Hbody.
  rewrite Hdocs in Hbody.
  destruct (sections_app _ _ _ _ Hbody) as (t1 & t2 & _ & H2 & ->).
  cbn [sections] in H2.
  destruct (feature_section (f, fd)) as [sf|] eqn:Hsf; [|discriminate].
  destruct (sections feature_section (mid ++ (g, gd) :: post)) as [rest|] eqn:Hrest;
    [|discriminate].
  apply Some_eq in H2. subst t2.
  destruct (sections_app _ _ _ _ Hrest) as (t3 & t4 & _ & H4 & ->).
  cbn [sections] in H4.
  destruct (feature_section (g, gd)) as [sg|] eqn:Hsg; [|discriminate].
  destruct (sections feature_section post) as [t5|]; [|discriminate].
  apply Some_eq in H4. subst t4.
  assert (Hhead : forall name d s,
            startswith name "$" = false ->
            feature_section (name, d) = Some s ->
            exists more, s = header_text "-" ("Feature: " ++ name) ++ more).
  { intros name d s Hn Hs. unfold feature_section in Hs. cbn [fst snd] in Hs.
    rewrite Hn in Hs.
    destruct (f_singleton d); [|discriminate].
    destruct (f_required d); [|discriminate].
    destruct (f_sub d) as [sub|]; [|discriminate].
    destruct (sections (property_section name) sub); [|discriminate].
    apply Some_eq in Hs. subst s. eexists. reflexivity. }
  destruct (Hhead f fd sf Hf Hsf) as (mf & ->).
  destruct (Hhead g gd sg Hg Hsg) as (mg & ->).
  eexists.
  exists (header_text "=" "Model" ++ RST_INTRO_MODEL_API
          ++ feature_graph_text (spec_keys (the_spec w)) ++ t1),
         (mf ++ t3), (mg ++ t5).
  split; [reflexivity|]. now rewrite !append_assoc.
Qed.

Lemma doc2rst_section_order_witness :
  exists rst a b c,
    fst (doc2rst None
           (with_docs (Sample.start Sample.aircraft Sample.writable)
              [("wing", Sample.wing); ("$global", Sample.bare); ("tail", Sample.tail)]))
    = Ok rst
    /\ rst = a ++ header_text "-" "Feature: wing" ++ b ++ header_text "-" "Feature: tail" ++ c.
Proof.
  exact (doc2rst_section_order
           (with_docs (Sample.start Sample.aircraft Sample.writable)
              [("wing", Sample.wing); ("$global", Sample.bare); ("tail", Sample.tail)])
           [] [("$global", Sample.bare)] [] "wing" "tail" Sample.wing Sample.tail
           eq_refl eq_refl eq_refl eq_refl).
Defined.

(** X8: with no feature to render (an empty documentation, or only
    features whose names start with [$]) [doc2rst] returns the header
    [Model], the introduction and the feature diagram, and nothing
    else. *)
Theorem doc2rst_nothing_to_render (w : world) :
  forallb (fun item => startswith (fst item) "$") (spec_docs (the_spec w)) = true ->
  exists h graph,
    get_header "Model" 0 = Ok h
    /\ fst (gen_feature_graph w) = Ok graph
    /\ fst (doc2rst None w) = Ok (h ++ RST_INTRO_MODEL_API ++ graph).
Proof.
  intros Hd.
  exists (header_text "=" "Model"), (feature_graph_text (spec_keys (the_spec w))).
  split; [reflexivity|]. split.
  - destruct (gen_feature_graph_text w) as (w' & E & _). now rewrite E.
  - destruct (doc2rst_outcome None w) as [R _]. rewrite R.
    unfold returned, model_api_text. rewrite (sections_hidden _ Hd).
    unfold blank. now rewrite append_blank_r.
Qed.

Lemma doc2rst_nothing_to_render_witness :
  exists h graph,
    get_header "Model" 0 = Ok h
    /\ fst (gen_feature_graph
              (with_docs (Sample.start Sample.incomplete Sample.writable)
                 [("$global", Sample.bare)])) = Ok graph
    /\ fst (doc2rst None
              (with_docs (Sample.start Sample.incomplete Sample.writable)
                 [("$global", Sample.bare)]))
       = Ok (h ++ RST_INTRO_MODEL_API ++ graph).
Proof.
  exact (doc2rst_nothing_to_render
           (with_docs (Sample.start Sample.incomplete Sample.writable)
              [("$global", Sample.bare)]) eq_refl).
Defined.

(** ** The columns of the schema table *)

Lemma single_line_append (a b : string) :
  single_line (a ++ b) = single_line a && single_line b.
Proof.
  induction a as [|c a IH]; [reflexivity|].
  cbn [append single_line]. now rewrite IH, andb_assoc.
Qed.

Lemma single_line_mul (s : string) (n : nat) :
  single_line s = true -> single_line (mul s n) = true.
Proof.
  intros Hs. induction n as [|n IH]; [reflexivity|].
  cbn [mul]. now rewrite single_line_append, Hs, IH.
Qed.

Lemma single_line_center (s : string) (width : nat) :
  single_line s = true -> single_line (center s width " ") = true.
Proof.
  intros Hs. unfold center.
  destruct (width <=? String.length s)%nat; [exact Hs|].
  rewrite !single_line_append, Hs, !single_line_mul; reflexivity.
Qed.

(** X9: when no key and no stringified value of a schema dict that is
    not empty holds a newline, its table is made of [len(sd) + 2] lines
    and a blank line, and the two columns are aligned: every line, the
    borders included, has the separating space at the same column,
    (greatest key length + 4). *)
Theorem schemadict2rst_columns (w : world) (entry : string * pyval) (rest : schemadict) :
  let sd := entry :: rest in
  forallb (fun e => single_line (fst e) && single_line (str (snd e))) sd = true ->
  exists key_len table_lines,
    is_max key_len (map (fun e => String.length (fst e)) sd)
    /\ fst (schemadict2rst sd w) = Ok (cat table_lines ++ nl)
    /\ List.length table_lines = List.length sd + 2
    /\ Forall (fun line => String.get (key_len + 4) line = Some " "%char
                           /\ exists cells, line = cells ++ nl /\ single_line cells = true)
              table_lines.
Proof.
  intros sd Hsingle.
  set (n1 := key_width sd + 4). set (n2 := value_width sd).
  pose proof (is_max_fold_right (String.length (fst entry))
                (map (fun e => String.length (fst e)) rest)) as Hk.
  exists (key_width sd),
         (table_border n1 n2 :: map (table_row n1 n2) sd ++ [table_border n1 n2])%list.
  split; [exact Hk|]. split; [|split].
  - destruct (schemadict2rst_text sd w) as (w' & E & _). rewrite E.
    unfold table_text. fold n1 n2. cbn [fst].
    change (cat (table_border n1 n2 :: map (table_row n1 n2) sd ++ [table_border n1 n2])%list)
      with (table_border n1 n2 ++ cat (map (table_row n1 n2) sd ++ [table_border n1 n2])%list).
    rewrite cat_app. cbn [cat fold_right]. unfold blank.
    now rewrite append_blank_r, !append_assoc.
  - cbn [List.length]. rewrite length_app, length_map. cbn [List.length]. lia.
  - assert (Hborder : String.get n1 (table_border n1 n2) = Some " "%char
                      /\ exists cells, table_border n1 n2 = cells ++ nl
                                       /\ single_line cells = true).
    { split.
      - unfold table_border. apply get_after. rewrite length_mul. cbn [String.length]. lia.
      - exists (mul "=" n1 ++ " " ++ mul "=" n2). split.
        + unfold table_border. now rewrite !append_assoc.
        + rewrite !single_line_append, !single_line_mul; reflexivity. }
    constructor; [exact Hborder|].
    apply Forall_app. split; [|constructor; [exact Hborder | constructor]].
    apply Forall_forall. intros row Hrow.
    apply in_map_iff in Hrow as (e & <- & He).
    split.
    + unfold table_row. apply get_after.
      rewrite (length_center _ _ " "), !length_append. cbn [String.length].
      assert (String.length (fst e) <= key_width sd)
        by (apply Hk; apply (in_map (fun e => String.length (fst e)) sd e He)).
      subst n1. lia.
    + exists (center ("**" ++ fst e ++ "**") n1 " " ++ " " ++ center (str (snd e)) n2 " ").
      split; [unfold table_row; now rewrite !append_assoc|].
      pose proof (proj1 (forallb_forall _ _) Hsingle e He) as Hse.
      apply andb_true_iff in Hse as [Hkey Hval].
      rewrite !single_line_append, !single_line_center; [reflexivity | exact Hval |].
      now rewrite !single_line_append, Hkey.
Qed.

Lemma schemadict2rst_columns_witness :
  exists table_lines,
    fst (schemadict2rst [("type", PyOther "<class 'float'>"); (">", PyInt 0)]
           (Sample.start Sample.aircraft Sample.writable))
    = Ok (cat table_lines ++ nl)
    /\ List.length table_lines = 4
    /\ Forall (fun line => String.get 8 line = Some " "%char
                           /\ exists cells, line = cells ++ nl /\ single_line cells = true)
              table_lines.
Proof.
  destruct (schemadict2rst_columns (Sample.start Sample.aircraft Sample.writable)
              ("type", PyOther "<class 'float'>") [(">", PyInt 0)] eq_refl)
    as (key_len & table_lines & Hmax & E & L & F).
  assert (key_len = 4) as ->.
  { destruct Hmax as [Hin Hle]. cbn in Hin, Hle.
    destruct Hin as [<-|[<-|[]]]; [reflexivity|].
    specialize (Hle 4 (or_introl eq_refl)). lia. }
  exists table_lines. split; [exact E|]. split; [exact L | exact F].
Defined.
